(** * proxysql_galera_hostgroups: the module's logic over a model of the
      ProxySQL admin interface

    Source: [plugins/modules/proxysql_galera_hostgroups.py].

    The module talks to the ProxySQL admin interface through a cursor.  The
    admin interface is not part of the module: it is modelled here as the
    table [mysql_galera_hostgroups] in its three layers (memory, disk,
    runtime) together with the log of the commands the module sent.

    The table is a list of rows.  Its schema is not part of the module, so
    no key and no column constraint is assumed: a SELECT with [fetchone]
    yields the first row that matches, an INSERT appends, UPDATE and DELETE
    act on every row that matches.  A SELECT is always answered; an INSERT,
    UPDATE or DELETE may be refused by the server (a constraint of the
    table), which [cursor.execute] reports as the driver's error.  Which
    statements a server refuses is a component of the server, so every
    result below holds for every such choice, and also for tables that hold
    several rows with one [writer_hostgroup].

    A run is a computation in a state and exception monad: the state is the
    server with the log, the exceptions are [module.fail_json], the driver's
    error and the AttributeError of a [.get] on [None]. *)

From Stdlib Require Import ZArith String List Bool Lia.
Import ListNotations.

Local Open Scope Z_scope.

(** ** Data *)

(** A row of [mysql_galera_hostgroups], columns as the INSERT statement of
    [create_galera_group_config] lists them.  [comment] may be NULL. *)
Module DbRow.
Record t := mk {
  writer_hostgroup : Z;
  backup_writer_hostgroup : Z;
  reader_hostgroup : Z;
  offline_hostgroup : Z;
  active : Z;
  max_writers : Z;
  writer_is_also_reader : Z;
  max_transactions_behind : Z;
  comment : option string
}.

Definition set_reader_hostgroup (v : Z) (r : t) : t :=
  mk (writer_hostgroup r) (backup_writer_hostgroup r) v
     (offline_hostgroup r) (active r) (max_writers r)
     (writer_is_also_reader r) (max_transactions_behind r) (comment r).

Definition set_comment (c : option string) (r : t) : t :=
  mk (writer_hostgroup r) (backup_writer_hostgroup r) (reader_hostgroup r)
     (offline_hostgroup r) (active r) (max_writers r)
     (writer_is_also_reader r) (max_transactions_behind r) c.
End DbRow.

Definition table := list DbRow.t.

(** [state=dict(default='present', choices=['present', 'absent'])] *)
Inductive State := present | absent.

(** [module.params], the entries the module's own code reads.  [comment] is
    a Python [str] or [None]. *)
Module Params.
Record t := mk {
  state : State;
  save_to_disk : bool;
  load_to_runtime : bool;
  writer_hostgroup : Z;
  backup_writer_hostgroup : Z;
  reader_hostgroup : Z;
  offline_hostgroup : Z;
  active : Z;
  max_writers : Z;
  writer_is_also_reader : Z;
  max_transactions_behind : Z;
  comment : option string
}.
End Params.

Module AnsibleModule.
Record t := mk { params : Params.t; check_mode : bool }.
End AnsibleModule.

(** The [result] dict of [main].  The keys [msg] and [galera_group] may be
    missing; [galera_group] may be present and hold [None]. *)
Module Result.
Record t := mk {
  state : State;
  changed : bool;
  msg : option string;
  galera_group : option (option DbRow.t)
}.

Definition set_changed (b : bool) (r : t) : t :=
  mk (state r) b (msg r) (galera_group r).
Definition set_msg (m : string) (r : t) : t :=
  mk (state r) (changed r) (Some m) (galera_group r).
Definition set_galera_group (g : option DbRow.t) (r : t) : t :=
  mk (state r) (changed r) (msg r) (Some g).
End Result.

(** ** The admin interface *)

(** What the module sends to the admin interface. *)
Inductive event :=
| Connect
| SelectCount (w : Z)
| SelectRow (w : Z)
| InsertRow (r : DbRow.t)
| DeleteRows (w : Z)
| UpdateReader (v w : Z)
| UpdateComment (c : option string) (w : Z)
| SaveToDisk (what : string)
| LoadToRuntime (what : string).

(** INSERT, UPDATE and DELETE. *)
Definition is_write (e : event) : bool :=
  match e with
  | InsertRow _ | DeleteRows _ | UpdateReader _ _ | UpdateComment _ _ => true
  | _ => false
  end.

Definition is_save (e : event) : bool :=
  match e with SaveToDisk _ => true | _ => false end.

Definition is_load (e : event) : bool :=
  match e with LoadToRuntime _ => true | _ => false end.

(** Whether a command of the kind [p] was sent. *)
Definition performed (p : event -> bool) (l : list event) : bool := existsb p l.

Record ProxySQL := {
  connect_error : option string;
  memory : table;
  disk : table;
  runtime : table;
  refuses : event -> table -> option string
}.

Record Admin := { server : ProxySQL; log : list event }.

Definition with_memory (f : table -> table) (s : ProxySQL) : ProxySQL :=
  {| connect_error := connect_error s; memory := f (memory s);
     disk := disk s; runtime := runtime s; refuses := refuses s |}.

(** The statements of the module on a table. *)
Definition matches (w : Z) (r : DbRow.t) : bool :=
  DbRow.writer_hostgroup r =? w.

Definition select_count (w : Z) (t : table) : Z :=
  Z.of_nat (length (filter (matches w) t)).

Definition select_row (w : Z) (t : table) : option DbRow.t :=
  find (matches w) t.

Definition insert_row (r : DbRow.t) (t : table) : table := t ++ [r].

Definition delete_rows (w : Z) (t : table) : table :=
  filter (fun r => negb (matches w r)) t.

Definition update_rows (w : Z) (f : DbRow.t -> DbRow.t) (t : table) : table :=
  map (fun r => if matches w r then f r else r) t.

(** ** Effects: state of the admin interface, and exceptions *)

Inductive exn :=
| MysqlError (e : string)       (* mysql_driver.Error *)
| AttributeError                (* [None.get(...)] *)
| FailJson (msg : string).      (* module.fail_json(msg=...) *)

Definition M (A : Type) : Type := Admin -> (exn + A) * Admin.

Definition ret {A} (a : A) : M A := fun s => (inr a, s).

Definition bind {A B} (m : M A) (k : A -> M B) : M B :=
  fun s => match m s with
           | (inr a, s') => k a s'
           | (inl e, s') => (inl e, s')
           end.

Definition raise {A} (e : exn) : M A := fun s => (inl e, s).

(** [try: m except mysql_driver.Error as e: h e] *)
Definition try_except {A} (m : M A) (h : string -> M A) : M A :=
  fun s => match m s with
           | (inl (MysqlError e), s') => h e s'
           | r => r
           end.

Declare Scope mon_scope.
Delimit Scope mon_scope with mon.
Notation "x <- c1 ;; c2" := (bind c1 (fun x => c2))
  (at level 61, c1 at next level, right associativity) : mon_scope.
Notation "c1 ;; c2" := (bind c1 (fun _ => c2))
  (at level 61, right associativity) : mon_scope.
Local Open Scope mon_scope.

Definition emit (e : event) : M unit :=
  fun s => (inr tt, {| server := server s; log := log s ++ [e] |}).

Definition read {A} (f : table -> A) : M A :=
  fun s => (inr (f (memory (server s))), s).

Definition write (f : table -> table) : M unit :=
  fun s => (inr tt, {| server := with_memory f (server s); log := log s |}).

(** [cursor.execute] of an INSERT, UPDATE or DELETE raises the driver's
    error when the server refuses the statement on the table as it stands. *)
Definition accept (e : event) : M unit :=
  fun s => match refuses (server s) e (memory (server s)) with
           | Some err => (inl (MysqlError err), s)
           | None => (inr tt, s)
           end.

Definition fail_json {A} (msg : string) : M A := raise (FailJson msg).

Inductive cursor := DictCursor.

(** Modelled from the spec: [mysql_connect] lives in
    [plugins/module_utils/mysql.py], which is not among the sources; the spec
    says the module connects to the ProxySQL admin SQL interface and that
    connection handling is delegated.  The attempt is logged and it raises
    the driver's error when the server refuses. *)
Definition mysql_connect : M cursor :=
  emit Connect ;;
  fun s => match connect_error (server s) with
           | Some e => (inl (MysqlError e), s)
           | None => (inr DictCursor, s)
           end.

(** Modelled from the spec: [save_config_to_disk] lives in
    [plugins/module_utils/mysql.py], which is not among the sources; the spec
    calls it persisting the change: the memory layer is copied to disk. *)
Definition save_config_to_disk (_ : cursor) (what : string) : M unit :=
  emit (SaveToDisk what) ;;
  fun s => (inr tt,
            {| server := {| connect_error := connect_error (server s);
                            memory := memory (server s);
                            disk := memory (server s);
                            runtime := runtime (server s);
                            refuses := refuses (server s) |};
               log := log s |}).

(** Modelled from the spec: [load_config_to_runtime] lives in
    [plugins/module_utils/mysql.py], which is not among the sources; the spec
    calls it activating the change: the memory layer is copied to runtime. *)
Definition load_config_to_runtime (_ : cursor) (what : string) : M unit :=
  emit (LoadToRuntime what) ;;
  fun s => (inr tt,
            {| server := {| connect_error := connect_error (server s);
                            memory := memory (server s);
                            disk := disk (server s);
                            runtime := memory (server s);
                            refuses := refuses (server s) |};
               log := log s |}).

(** ** The module *)

Definition msg_writer : string :=
  "writer_hostgroup must be a integer greater than or equal to 0".
Definition msg_reader : string :=
  "reader_hostgroup must be an integer greater than or equal to 0".
Definition msg_different : string :=
  "reader_hostgroup and writer_hostgroup must be different integer values".

Definition perform_checks (module : AnsibleModule.t) : M unit :=
  let p := AnsibleModule.params module in
  (if negb (Params.writer_hostgroup p >=? 0)
   then fail_json msg_writer else ret tt) ;;
  (if Params.reader_hostgroup p <? 0
   then fail_json msg_reader else ret tt) ;;
  (if Params.reader_hostgroup p =? Params.writer_hostgroup p
   then fail_json msg_different else ret tt).

(** [self] of [ProxySQLGaleraHostgroup]. *)
Record ProxySQLGaleraHostgroup := {
  state : State;
  save_to_disk : bool;
  load_to_runtime : bool;
  writer_hostgroup : Z;
  backup_writer_hostgroup : Z;
  reader_hostgroup : Z;
  offline_hostgroup : Z;
  active : Z;
  max_writers : Z;
  writer_is_also_reader : Z;
  max_transactions_behind : Z;
  comment : option string;
  check_mode : bool
}.

(** [__init__] *)
Definition init (module : AnsibleModule.t) : ProxySQLGaleraHostgroup :=
  let p := AnsibleModule.params module in
  {| state := Params.state p;
     save_to_disk := Params.save_to_disk p;
     load_to_runtime := Params.load_to_runtime p;
     writer_hostgroup := Params.writer_hostgroup p;
     backup_writer_hostgroup := Params.backup_writer_hostgroup p;
     reader_hostgroup := Params.reader_hostgroup p;
     offline_hostgroup := Params.offline_hostgroup p;
     active := Params.active p;
     max_writers := Params.max_writers p;
     writer_is_also_reader := Params.writer_is_also_reader p;
     max_transactions_behind := Params.max_transactions_behind p;
     comment := Params.comment p;
     check_mode := AnsibleModule.check_mode module |}.

(** Python truth value of a [str] or [None], and [c or '']. *)
Definition truthy (c : option string) : bool :=
  match c with
  | Some s => negb (s =? "")%string
  | None => false
  end.

Definition or_empty (c : option string) : string :=
  match c with
  | Some s => if truthy c then s else ""%string
  | None => ""%string
  end.

(** [a != b] on values that are a [str] or [None]. *)
Definition comment_ne (a b : option string) : bool :=
  match a, b with
  | Some x, Some y => negb (x =? y)%string
  | None, None => false
  | _, _ => true
  end.

(** [current.get(col)]: an AttributeError when [current] is [None]. *)
Definition get {A} (current : option DbRow.t) (col : DbRow.t -> A) : M A :=
  match current with
  | Some r => ret (col r)
  | None => raise AttributeError
  end.

Section Methods.
Variable self : ProxySQLGaleraHostgroup.

Definition check_galera_group_config (_ : cursor) (keys : bool) : M bool :=
  emit (SelectCount (writer_hostgroup self)) ;;
  check_count <- read (select_count (writer_hostgroup self)) ;;
  ret (check_count >? 0).

Definition get_galera_group_config (_ : cursor) : M (option DbRow.t) :=
  emit (SelectRow (writer_hostgroup self)) ;;
  read (select_row (writer_hostgroup self)).

Definition new_row : DbRow.t :=
  DbRow.mk (writer_hostgroup self) (backup_writer_hostgroup self)
         (reader_hostgroup self) (offline_hostgroup self) (active self)
         (max_writers self) (writer_is_also_reader self)
         (max_transactions_behind self) (Some (or_empty (comment self))).

Definition create_galera_group_config (_ : cursor) : M bool :=
  emit (InsertRow new_row) ;;
  accept (InsertRow new_row) ;;
  write (insert_row new_row) ;;
  ret true.

Definition delete_galera_group_config (_ : cursor) : M bool :=
  emit (DeleteRows (writer_hostgroup self)) ;;
  accept (DeleteRows (writer_hostgroup self)) ;;
  write (delete_rows (writer_hostgroup self)) ;;
  ret true.

Definition manage_config (c : cursor) (state : bool) : M unit :=
  if state && negb (check_mode self) then
    (if save_to_disk self then save_config_to_disk c "SERVERS" else ret tt) ;;
    (if load_to_runtime self then load_config_to_runtime c "SERVERS"
     else ret tt)
  else ret tt.

Definition update_reader_hostgroup (_ : cursor) : M unit :=
  emit (UpdateReader (reader_hostgroup self) (writer_hostgroup self)) ;;
  accept (UpdateReader (reader_hostgroup self) (writer_hostgroup self)) ;;
  write (update_rows (writer_hostgroup self)
                     (DbRow.set_reader_hostgroup (reader_hostgroup self))).

Definition update_comment (_ : cursor) : M unit :=
  emit (UpdateComment (comment self) (writer_hostgroup self)) ;;
  accept (UpdateComment (comment self) (writer_hostgroup self)) ;;
  write (update_rows (writer_hostgroup self)
                     (DbRow.set_comment (comment self))).

Definition create_galera_group (result : Result.t) (c : cursor)
  : M Result.t :=
  if negb (check_mode self) then
    b <- create_galera_group_config c ;;
    let result := Result.set_changed b result in
    let result := Result.set_msg "Added server to mysql_hosts" result in
    g <- get_galera_group_config c ;;
    let result := Result.set_galera_group g result in
    manage_config c (Result.changed result) ;;
    ret result
  else
    let result := Result.set_changed true result in
    ret (Result.set_msg
           ("Galera group would have been added to"
            ++ " mysql_galera_hostgroups, however"
            ++ " check_mode is enabled.")%string result).

Definition update_galera_group (result : Result.t) (c : cursor)
  : M Result.t :=
  current <- get_galera_group_config c ;;
  comment_now <- get current DbRow.comment ;;
  result <-
    (if comment_ne comment_now (comment self) then
       let result := Result.set_changed true result in
       let result :=
         Result.set_msg "Updated galera hostgroups in check_mode" result in
       if negb (check_mode self) then
         let result := Result.set_msg "Updated galera hostgroups" result in
         update_comment c ;;
         ret result
       else ret result
     else ret result) ;;
  reader_now <- get current DbRow.reader_hostgroup ;;
  result <-
    (if negb (reader_now =? reader_hostgroup self) then
       let result := Result.set_changed true result in
       let result :=
         Result.set_msg "Updated galera hostgroups in check_mode" result in
       if negb (check_mode self) then
         let result := Result.set_msg "Updated galera hostgroups" result in
         update_reader_hostgroup c ;;
         ret result
       else ret result
     else ret result) ;;
  g <- get_galera_group_config c ;;
  let result := Result.set_galera_group g result in
  manage_config c (Result.changed result) ;;
  ret result.

Definition delete_galera_group (result : Result.t) (c : cursor)
  : M Result.t :=
  if negb (check_mode self) then
    g <- get_galera_group_config c ;;
    let result := Result.set_galera_group g result in
    b <- delete_galera_group_config c ;;
    let result := Result.set_changed b result in
    let result := Result.set_msg "Deleted server from mysql_hosts" result in
    manage_config c (Result.changed result) ;;
    ret result
  else
    let result := Result.set_changed true result in
    ret (Result.set_msg
           ("Galera group would have been deleted from"
            ++ " mysql_galera_hostgroups, however"
            ++ " check_mode is enabled.")%string result).
End Methods.

Definition msg_absent : string :=
  ("The galera group is already absent from the"
   ++ " mysql_galera_hostgroups memory"
   ++ " configuration")%string.

(** [main]; the value returned is what [module.exit_json] is called with. *)
Definition main (module : AnsibleModule.t) : M Result.t :=
  perform_checks module ;;
  c <- try_except mysql_connect
         (fun e => fail_json
            ("unable to connect to ProxySQL Admin Module.. " ++ e)%string) ;;
  let proxysql_galera_group := init module in
  let result :=
    Result.mk (state proxysql_galera_group) false None None in
  match state proxysql_galera_group with
  | present =>
      try_except
        (b <- check_galera_group_config proxysql_galera_group c true ;;
         if negb b then
           create_galera_group proxysql_galera_group result c
         else
           result <- update_galera_group proxysql_galera_group result c ;;
           g <- get_galera_group_config proxysql_galera_group c ;;
           ret (Result.set_galera_group g result))
        (fun e => fail_json
           ("unable to modify galera hostgroup.. " ++ e)%string)
  | absent =>
      try_except
        (b <- check_galera_group_config proxysql_galera_group c true ;;
         if b then
           delete_galera_group proxysql_galera_group result c
         else
           let result := Result.set_changed false result in
           ret (Result.set_msg msg_absent result))
        (fun e => fail_json
           ("unable to delete galera hostgroup.. " ++ e)%string)
  end.

(** One run of the module against a server, from an empty log. *)
Definition run (module : AnsibleModule.t) (srv : ProxySQL)
  : (exn + Result.t) * Admin :=
  main module {| server := srv; log := [] |}.

Definition outcome (module : AnsibleModule.t) (srv : ProxySQL)
  : exn + Result.t :=
  fst (run module srv).
Definition after (module : AnsibleModule.t) (srv : ProxySQL) : ProxySQL :=
  server (snd (run module srv)).
Definition sent (module : AnsibleModule.t) (srv : ProxySQL) : list event :=
  log (snd (run module srv)).

(** The rows of a table that the module's parameters do not name. *)
Definition other_rows (w : Z) (t : table) : table :=
  filter (fun r => negb (DbRow.writer_hostgroup r =? w)) t.

(** What [perform_checks] accepts. *)
Definition checks_pass (p : Params.t) : Prop :=
  0 <= Params.writer_hostgroup p /\ 0 <= Params.reader_hostgroup p /\
  Params.reader_hostgroup p <> Params.writer_hostgroup p.

(** The [changed] entry of the result; a failed run has reported none. *)
Definition reports_changed (o : exn + Result.t) : bool :=
  match o with
  | inr r => Result.changed r
  | inl _ => false
  end.

(** The module's own code refused the parameters: the run failed and
    nothing had been sent to the admin interface. *)
Definition rejected_by_own_checks (module : AnsibleModule.t) (srv : ProxySQL)
  : Prop :=
  exists m, outcome module srv = inl (FailJson m) /\ sent module srv = [].

(** The table holds what the parameters declare, as far as the module
    compares: under [present] the row the module fetches has the parameters'
    comment and reader hostgroup, under [absent] there is no row. *)
Definition settled (p : Params.t) (t : table) : Prop :=
  match Params.state p with
  | present =>
      exists r, select_row (Params.writer_hostgroup p) t = Some r /\
                DbRow.comment r = Params.comment p /\
                DbRow.reader_hostgroup r = Params.reader_hostgroup p
  | absent => select_row (Params.writer_hostgroup p) t = None
  end.

(** ** Servers and parameter sets used below *)

Definition invalid_module : AnsibleModule.t :=
  AnsibleModule.mk
    (Params.mk present true true (-1) 2 3 4 1 1 0 0 (Some ""%string)) false.

(** A server that refuses no statement. *)
Definition accept_all (_ : event) (_ : table) : option string := None.

(** A server that keeps one constraint of the table: a reader hostgroup
    must be positive. *)
Definition reader_positive (e : event) (_ : table) : option string :=
  match e with
  | InsertRow r =>
      if DbRow.reader_hostgroup r >? 0 then None
      else Some "CHECK constraint failed"%string
  | UpdateReader v _ =>
      if v >? 0 then None else Some "CHECK constraint failed"%string
  | _ => None
  end.

Definition empty_server : ProxySQL :=
  {| connect_error := None; memory := []; disk := []; runtime := [];
     refuses := accept_all |}.

Definition fresh_module : AnsibleModule.t :=
  AnsibleModule.mk
    (Params.mk present true true 1 2 3 4 1 1 0 0 (Some "rw split"%string))
    false.


Definition refusing_server : ProxySQL :=
  {| connect_error := Some "Access denied"%string;
     memory := []; disk := []; runtime := []; refuses := accept_all |}.

Definition plain_module : AnsibleModule.t :=
  AnsibleModule.mk
    (Params.mk present true true 1 2 3 4 1 1 0 0 (Some ""%string)) false.

Definition stale_row : DbRow.t := DbRow.mk 1 2 3 4 1 1 0 0 (Some ""%string).

Definition stale_server : ProxySQL :=
  {| connect_error := None;
     memory := [stale_row]; disk := [stale_row]; runtime := [stale_row];
     refuses := accept_all |}.


Definition strict_stale_server : ProxySQL :=
  {| connect_error := None;
     memory := [stale_row]; disk := [stale_row]; runtime := [stale_row];
     refuses := reader_positive |}.


Definition zero_reader_moved_module : AnsibleModule.t :=
  AnsibleModule.mk
    (Params.mk present true true 1 2 0 4 1 1 0 0 (Some "moved"%string)) false.

Definition retarget_module : AnsibleModule.t :=
  AnsibleModule.mk
    (Params.mk present true true 1 2 7 4 1 1 0 0 (Some "moved"%string)) false.

Definition remove_module : AnsibleModule.t :=
  AnsibleModule.mk
    (Params.mk absent true true 1 2 3 4 1 1 0 0 (Some ""%string)) false.

Definition raise_max_writers : AnsibleModule.t :=
  AnsibleModule.mk
    (Params.mk present true true 1 2 3 4 1 5 0 0 (Some ""%string)) false.

Definition null_comment_module : AnsibleModule.t :=
  AnsibleModule.mk (Params.mk present true true 1 2 3 4 1 1 0 0 None) false.

(** ** Notions for the further properties *)

(** The keys of a table. *)
Definition keys (t : table) : list Z := map DbRow.writer_hostgroup t.

(** A command after the connection is in order for the writer hostgroup
    [w]: a statement on the table names [w] in its WHERE clause, or inserts
    a row with that [writer_hostgroup]; a save or load names "SERVERS";
    there is no second connection. *)
Definition addressed (w : Z) (e : event) : bool :=
  match e with
  | Connect => false
  | SelectCount k | SelectRow k | DeleteRows k
  | UpdateReader _ k | UpdateComment _ k => k =? w
  | InsertRow r => DbRow.writer_hostgroup r =? w
  | SaveToDisk what | LoadToRuntime what => (what =? "SERVERS")%string
  end.

(** No INSERT, UPDATE or DELETE comes after a save or a load. *)
Fixpoint quiet_after_propagation (l : list event) : bool :=
  match l with
  | [] => true
  | e :: l' =>
      (if is_save e || is_load e then negb (performed is_write l') else true)
      && quiet_after_propagation l'
  end.

Definition present_self : ProxySQLGaleraHostgroup :=
  init plain_module.

(** ** Tactics *)

Arguments select_count : simpl never.
Arguments select_row : simpl never.
Arguments insert_row : simpl never.
Arguments delete_rows : simpl never.
Arguments update_rows : simpl never.
Arguments other_rows : simpl never.
Arguments new_row : simpl never.
Arguments comment_ne : simpl never.

Ltac unfold_module :=
  unfold outcome, after, sent, run, main, perform_checks,
    check_galera_group_config, create_galera_group, update_galera_group,
    delete_galera_group, create_galera_group_config,
    delete_galera_group_config, get_galera_group_config, manage_config,
    update_comment, update_reader_hostgroup, mysql_connect,
    save_config_to_disk, load_config_to_runtime, get, fail_json, try_except,
    bind, ret, raise, emit, accept, read, write, with_memory, init; cbn.

Ltac split_branch :=
  match goal with
  | |- context [if ?b then _ else _] => destruct b eqn:?
  | |- context [match ?b with present => _ | absent => _ end] =>
      destruct b eqn:?
  | |- context [match ?b with Some _ => _ | None => _ end] =>
      destruct b eqn:?
  end; cbn.

(** ** The statements on a table *)

Section Statements.
Variable w : Z.

Lemma select_count_nonneg t : 0 <= select_count w t.
Proof. unfold select_count. lia. Qed.

Lemma select_count_row t :
  (select_count w t >? 0) = true <-> exists r, select_row w t = Some r.
Proof.
  unfold select_count, select_row.
  induction t as [|r t IH]; cbn.
  - split; [discriminate | intros [r H]; discriminate].
  - destruct (matches w r); cbn -[Z.of_nat].
    + split; [eauto | intros _; apply Z.gtb_lt; lia].
    + exact IH.
Qed.

Lemma select_count_none t :
  (select_count w t >? 0) = false <-> select_row w t = None.
Proof.
  destruct (select_count w t >? 0) eqn:E.
  - apply select_count_row in E. destruct E as [r E]. rewrite E.
    split; discriminate.
  - split; [intros _ | reflexivity].
    destruct (select_row w t) eqn:F; [|reflexivity].
    assert (H : (select_count w t >? 0) = true)
      by (apply select_count_row; eauto).
    congruence.
Qed.

Lemma select_row_matches t r :
  select_row w t = Some r -> DbRow.writer_hostgroup r = w.
Proof.
  unfold select_row. intros H. apply find_some in H.
  destruct H as [_ H]. unfold matches in H. lia.
Qed.

Lemma select_row_insert t r :
  select_row w t = None -> matches w r = true ->
  select_row w (insert_row r t) = Some r.
Proof.
  unfold select_row, insert_row. intros Hn Hr.
  induction t as [|x t IH]; cbn in *.
  - now rewrite Hr.
  - destruct (matches w x); [discriminate | auto].
Qed.

Lemma select_row_delete t : select_row w (delete_rows w t) = None.
Proof.
  unfold select_row, delete_rows.
  induction t as [|x t IH]; cbn; [reflexivity|].
  destruct (matches w x) eqn:E; cbn; [exact IH | now rewrite E].
Qed.

Lemma select_row_update f t :
  (forall r, DbRow.writer_hostgroup (f r) = DbRow.writer_hostgroup r) ->
  select_row w (update_rows w f t) = option_map f (select_row w t).
Proof.
  unfold select_row, update_rows, matches. intros Hf.
  induction t as [|x t IH]; cbn; [reflexivity|].
  destruct (DbRow.writer_hostgroup x =? w) eqn:E.
  - now rewrite Hf, E.
  - now rewrite E.
Qed.

Lemma other_rows_insert t r :
  matches w r = true -> other_rows w (insert_row r t) = other_rows w t.
Proof.
  unfold other_rows, insert_row, matches. intros Hr.
  rewrite filter_app. cbn. rewrite Hr. cbn. apply app_nil_r.
Qed.

Lemma other_rows_delete t : other_rows w (delete_rows w t) = other_rows w t.
Proof.
  unfold other_rows, delete_rows, matches.
  induction t as [|x t IH]; cbn; [reflexivity|].
  destruct (DbRow.writer_hostgroup x =? w) eqn:E; cbn; [exact IH|].
  rewrite E. cbn. now rewrite IH.
Qed.

Lemma other_rows_update f t :
  (forall r, DbRow.writer_hostgroup (f r) = DbRow.writer_hostgroup r) ->
  other_rows w (update_rows w f t) = other_rows w t.
Proof.
  unfold other_rows, update_rows, matches. intros Hf.
  induction t as [|x t IH]; cbn; [reflexivity|].
  destruct (DbRow.writer_hostgroup x =? w) eqn:E; cbn.
  - rewrite Hf, E. cbn. exact IH.
  - rewrite E. cbn. now rewrite IH.
Qed.
End Statements.

Lemma set_comment_key c r :
  DbRow.writer_hostgroup (DbRow.set_comment c r) = DbRow.writer_hostgroup r.
Proof. reflexivity. Qed.

Lemma set_reader_key v r :
  DbRow.writer_hostgroup (DbRow.set_reader_hostgroup v r)
  = DbRow.writer_hostgroup r.
Proof. reflexivity. Qed.

Lemma new_row_matches self :
  matches (writer_hostgroup self) (new_row self) = true.
Proof. unfold matches, new_row. cbn. apply Z.eqb_refl. Qed.

Create HintDb galera.
#[local] Hint Resolve set_comment_key set_reader_key new_row_matches : galera.

(** ** The frame of a run *)

(** C4: whatever the parameters, the state, the check mode and the starting
    table, the rows whose [writer_hostgroup] differs from the parameter are
    the same after the run, in the same order. *)
Theorem other_rows_unchanged (module : AnsibleModule.t) (srv : ProxySQL) :
  let w := Params.writer_hostgroup (AnsibleModule.params module) in
  other_rows w (memory (after module srv)) = other_rows w (memory srv).
Proof.
  destruct module as [p cm], srv as [ce t d r rf]. cbn.
  set (self := init (AnsibleModule.mk p cm)).
  pose proof (new_row_matches self) as Hn.
  destruct p. unfold_module. cbn in Hn.
  repeat split_branch;
    rewrite ?other_rows_update, ?other_rows_insert, ?other_rows_delete
      by auto with galera;
    reflexivity.
Qed.

(** ** What a run reaches *)

Lemma comment_ne_refl c : comment_ne c c = false.
Proof.
  destruct c as [s|]; cbn; [|reflexivity].
  unfold comment_ne. now rewrite String.eqb_refl.
Qed.

Lemma comment_ne_false a b : comment_ne a b = false -> a = b.
Proof.
  unfold comment_ne. destruct a as [x|], b as [y|]; try discriminate; auto.
  intros H. apply negb_false_iff, String.eqb_eq in H. now subst.
Qed.

Lemma or_empty_some s : or_empty (Some s) = s.
Proof.
  unfold or_empty, truthy. destruct (s =? "")%string eqn:E; cbn; auto.
  apply String.eqb_eq in E. now subst.
Qed.

Lemma no_row_select w t :
  (forall r, In r t -> DbRow.writer_hostgroup r <> w) <-> select_row w t = None.
Proof.
  unfold select_row. split.
  - intros H. destruct (find (matches w) t) as [r|] eqn:E; [|reflexivity].
    apply find_some in E. destruct E as [Hin Hm].
    unfold matches in Hm. apply Z.eqb_eq in Hm. now apply H in Hin.
  - intros H r Hin Hw. apply (find_none _ _ H) in Hin.
    unfold matches in Hin. apply Z.eqb_neq in Hin. contradiction.
Qed.

(** The branch [check_galera_group_config] takes and the row that
    [get_galera_group_config] then fetches agree. *)
Ltac absurd_count :=
  match goal with
  | H1 : negb (select_count ?w ?t >? 0) = false,
    H2 : select_row ?w ?t = None |- _ =>
      exfalso; apply select_count_none in H2; rewrite H2 in H1; discriminate
  | H1 : (select_count ?w ?t >? 0) = true,
    H2 : select_row ?w ?t = None |- _ =>
      exfalso; apply select_count_none in H2; rewrite H2 in H1; discriminate
  | H1 : negb (select_count ?w ?t >? 0) = true,
    H2 : select_row ?w ?t = Some _ |- _ =>
      exfalso; apply negb_true_iff, select_count_none in H1;
      rewrite H1 in H2; discriminate
  | H1 : (select_count ?w ?t >? 0) = false,
    H2 : select_row ?w ?t = Some _ |- _ =>
      exfalso; apply select_count_none in H1;
      rewrite H1 in H2; discriminate
  end.

Ltac run_cases := unfold_module; repeat split_branch; try absurd_count.

(** The comparisons of [perform_checks], as facts on integers. *)
Ltac arith_hyps :=
  repeat match goal with
    | H : negb _ = true |- _ => apply negb_true_iff in H
    | H : negb _ = false |- _ => apply negb_false_iff in H
    | H : (_ >=? _) = _ |- _ => rewrite Z.geb_leb in H
    | H : (_ <=? _) = true |- _ => apply Z.leb_le in H
    | H : (_ <=? _) = false |- _ => apply Z.leb_gt in H
    | H : (_ <? _) = true |- _ => apply Z.ltb_lt in H
    | H : (_ <? _) = false |- _ => apply Z.ltb_ge in H
    | H : (_ =? _) = true |- _ => apply Z.eqb_eq in H
    | H : (_ =? _) = false |- _ => apply Z.eqb_neq in H
    end.

(** ** Check mode *)

(** C10: in check mode no INSERT, UPDATE or DELETE is sent, nothing is saved
    to disk or loaded to runtime, and the three layers of the table are what
    they were; yet the reported [changed] can be true. *)
Theorem check_mode_changes_nothing (p : Params.t) (srv : ProxySQL) :
  let module := AnsibleModule.mk p true in
  performed is_write (sent module srv) = false /\
  performed is_save (sent module srv) = false /\
  performed is_load (sent module srv) = false /\
  after module srv = srv /\
  exists p' srv',
    reports_changed (outcome (AnsibleModule.mk p' true) srv') = true.
Proof.
  cbn. repeat split.
  - destruct p, srv. run_cases; reflexivity.
  - destruct p, srv. run_cases; reflexivity.
  - destruct p, srv. run_cases; reflexivity.
  - destruct p, srv. run_cases; reflexivity.
  - exists (Params.mk present true true 1 2 3 4 1 1 0 0 (Some ""%string)).
    exists empty_server.
    reflexivity.
Qed.

(** ** Validation *)

(** C9: a negative [writer_hostgroup], a negative [reader_hostgroup] or a
    [reader_hostgroup] equal to the [writer_hostgroup] makes the module fail
    with the message of a check that the parameters violate; nothing was
    sent to the admin interface, not even the connection attempt, and the
    server is as it was. *)
Theorem invalid_parameters_fail (module : AnsibleModule.t) (srv : ProxySQL) :
  let p := AnsibleModule.params module in
  Params.writer_hostgroup p < 0 \/ Params.reader_hostgroup p < 0 \/
  Params.reader_hostgroup p = Params.writer_hostgroup p ->
  (exists m, outcome module srv = inl (FailJson m) /\
     ((m = msg_writer /\ Params.writer_hostgroup p < 0) \/
      (m = msg_reader /\ Params.reader_hostgroup p < 0) \/
      (m = msg_different /\
       Params.reader_hostgroup p = Params.writer_hostgroup p))) /\
  sent module srv = [] /\
  after module srv = srv.
Proof.
  destruct module as [p cm]. cbn. intros H.
  unfold outcome, after, sent, run, main, perform_checks, bind, fail_json,
    raise, ret. cbn.
  destruct (Params.writer_hostgroup p >=? 0) eqn:Ew; cbn.
  2:{ split; [|auto]. exists msg_writer. split; [reflexivity|]. left.
      split; [reflexivity|]. rewrite Z.geb_leb in Ew.
      apply Z.leb_gt in Ew. lia. }
  destruct (Params.reader_hostgroup p <? 0) eqn:Er; cbn.
  1:{ split; [|auto]. exists msg_reader. split; [reflexivity|]. right. left.
      split; [reflexivity|]. apply Z.ltb_lt in Er. lia. }
  destruct (Params.reader_hostgroup p =? Params.writer_hostgroup p) eqn:Ed; cbn.
  1:{ split; [|auto]. exists msg_different. split; [reflexivity|].
      right. right. split; [reflexivity|]. apply Z.eqb_eq in Ed. lia. }
  exfalso. apply Z.geb_le in Ew. apply Z.ltb_ge in Er. apply Z.eqb_neq in Ed.
  lia.
Qed.

Lemma invalid_parameters_fail_witness :
  (exists m, outcome invalid_module empty_server = inl (FailJson m) /\
     ((m = msg_writer /\ -1 < 0) \/ (m = msg_reader /\ 3 < 0) \/
      (m = msg_different /\ 3 = -1))) /\
  sent invalid_module empty_server = [] /\
  after invalid_module empty_server = empty_server.
Proof.
  apply (invalid_parameters_fail invalid_module empty_server).
  cbn. left. lia.
Defined.

(** C7 does not hold as stated: [perform_checks] is code of this
    module and rejects a negative [writer_hostgroup] before anything is sent
    to the admin interface. *)
Lemma module_rejects_negative_writer :
  rejected_by_own_checks invalid_module empty_server /\
  outcome invalid_module empty_server = inl (FailJson msg_writer).
Proof. split; [exists msg_writer; split; reflexivity | reflexivity]. Qed.

(** C7, amended: the module's own code rejects exactly the parameter sets
    that [perform_checks] refuses (a negative [writer_hostgroup], a negative
    [reader_hostgroup], or both equal), before it connects; every other
    parameter set passes the module's own checks and the module goes on to
    connect. *)
Theorem own_checks_exactly (module : AnsibleModule.t) (srv : ProxySQL) :
  let p := AnsibleModule.params module in
  (rejected_by_own_checks module srv <-> ~ checks_pass p) /\
  (checks_pass p <-> exists rest, sent module srv = Connect :: rest).
Proof.
  destruct module as [p cm], srv as [ce t d r rf].
  destruct p as [st sv ld w bw rh off act mw wr mtb c].
  unfold rejected_by_own_checks, checks_pass. cbn.
  run_cases.
  all: arith_hyps.
  all: split; split.
  all: try (intros [m [Ho Hs]]; discriminate).
  all: try (intros [x Ho]; discriminate).
  all: try (intros; lia).
  all: try (intros _; eexists; reflexivity).
  all: try (intros _; eexists; split; reflexivity).
  all: try (intros Hn; exfalso; apply Hn; lia).
Qed.

(** ** Saving to disk and loading to runtime *)

Lemma insert_row_changes r t : insert_row r t <> t.
Proof.
  unfold insert_row. intros H. apply (f_equal (@length _)) in H.
  rewrite length_app in H. cbn in H. lia.
Qed.

Lemma selected_changes w t t' :
  select_row w t' <> select_row w t -> t' <> t.
Proof. intros H E. apply H. now rewrite E. Qed.

(** The table after an accepted INSERT, after the accepted UPDATEs of a row
    that differed, or after an accepted DELETE of a row that existed, is not
    the table before. *)
Ltac table_differs :=
  first
    [ apply insert_row_changes
    | match goal with
      | H : select_row ?w ?t = Some _ |- _ <> ?t =>
          apply (selected_changes w);
          rewrite ?select_row_update by auto with galera;
          rewrite H; cbn; intros E; injection E as E;
          pose proof (f_equal DbRow.comment E) as Ec;
          pose proof (f_equal DbRow.reader_hostgroup E) as Er;
          cbn in Ec, Er;
          match goal with
          | H1 : comment_ne (DbRow.comment _) _ = true |- _ =>
              rewrite <- Ec, comment_ne_refl in H1; discriminate
          | H1 : negb (DbRow.reader_hostgroup _ =? _) = true |- _ =>
              rewrite <- Er, Z.eqb_refl in H1; discriminate
          end
      | H : (select_count ?w ?t >? 0) = true |- _ <> ?t =>
          apply (selected_changes w);
          rewrite select_row_delete;
          apply select_count_row in H; destruct H as [x H]; rewrite H;
          discriminate
      end ].

(** In a run that ends with a result, the memory layer differs afterwards
    exactly when the result reports [changed] outside check mode. *)
Lemma memory_changed_iff
  (module : AnsibleModule.t) (srv : ProxySQL) (res : Result.t) :
  outcome module srv = inr res ->
  (memory (after module srv) <> memory srv <->
   Result.changed res = true /\ AnsibleModule.check_mode module = false).
Proof.
  destruct module as [p cm], srv as [ce t d r rf].
  destruct p as [st sv ld w bw rh off act mw wr mtb c].
  destruct cm; cbn; run_cases.
  all: intros Ho; try discriminate Ho; injection Ho as <-; cbn.
  all: try (split;
            [intros H; now contradiction H | intros [? ?]; discriminate]).
  all: split; [intros _; split; reflexivity|intros _].
  all: table_differs.
Qed.

(** A save or a load is sent only with check mode off, the flag set, and
    after the table in memory has changed. *)
Lemma propagation_needs_change (module : AnsibleModule.t) (srv : ProxySQL) :
  let p := AnsibleModule.params module in
  let cm := AnsibleModule.check_mode module in
  (performed is_save (sent module srv) = true ->
   cm = false /\ Params.save_to_disk p = true /\
   memory (after module srv) <> memory srv) /\
  (performed is_load (sent module srv) = true ->
   cm = false /\ Params.load_to_runtime p = true /\
   memory (after module srv) <> memory srv).
Proof.
  destruct module as [p cm], srv as [ce t d r rf].
  destruct p as [st sv ld w bw rh off act mw wr mtb c].
  destruct cm; cbn; run_cases.
  all: split; intros Hs; try discriminate Hs.
  all: split; [reflexivity|]; split; [reflexivity|].
  all: table_differs.
Qed.

Lemma propagation_iff_changed
  (module : AnsibleModule.t) (srv : ProxySQL) (res : Result.t) :
  let p := AnsibleModule.params module in
  let cm := AnsibleModule.check_mode module in
  outcome module srv = inr res ->
  (performed is_save (sent module srv) = true <->
   Result.changed res = true /\ cm = false /\
   Params.save_to_disk p = true) /\
  (performed is_load (sent module srv) = true <->
   Result.changed res = true /\ cm = false /\
   Params.load_to_runtime p = true).
Proof.
  destruct module as [p cm], srv as [ce t d r rf].
  destruct p as [st sv ld w bw rh off act mw wr mtb c].
  destruct cm; cbn; run_cases.
  all: intros Ho; try discriminate Ho; injection Ho as <-; cbn.
  all: intuition discriminate.
Qed.

(** C5 does not hold as stated: the row for writer hostgroup 1 holds comment
    "" and reader hostgroup 3, the parameters ask for comment "moved" and
    reader hostgroup 0, and the server refuses a reader hostgroup that is
    not positive.  The comment UPDATE is accepted, the reader UPDATE is
    refused and [main] fails: the table has changed, check mode is off and
    [save_to_disk] and [load_to_runtime] are set, yet neither a save nor a
    load is sent. *)
Lemma changed_table_not_saved :
  memory (after zero_reader_moved_module strict_stale_server)
    <> memory strict_stale_server /\
  AnsibleModule.check_mode zero_reader_moved_module = false /\
  Params.save_to_disk (AnsibleModule.params zero_reader_moved_module)
    = true /\
  Params.load_to_runtime (AnsibleModule.params zero_reader_moved_module)
    = true /\
  performed is_save (sent zero_reader_moved_module strict_stale_server)
    = false /\
  performed is_load (sent zero_reader_moved_module strict_stale_server)
    = false /\
  outcome zero_reader_moved_module strict_stale_server =
    inl (FailJson
           "unable to modify galera hostgroup.. CHECK constraint failed").
Proof. repeat split; try reflexivity. cbn. discriminate. Qed.

(** C5, amended: a save to disk (a load to runtime) is sent only when check
    mode is off, [save_to_disk] ([load_to_runtime]) is set and the table in
    memory has changed; and in a run that ends with a result it is sent
    exactly when the result reports [changed], check mode is off and the
    flag is set, where outside check mode [changed] is reported exactly
    when the table in memory is no longer what it was.  So a run that
    changes nothing invokes neither. *)
Theorem propagation_iff (module : AnsibleModule.t) (srv : ProxySQL) :
  let p := AnsibleModule.params module in
  let cm := AnsibleModule.check_mode module in
  (performed is_save (sent module srv) = true ->
   cm = false /\ Params.save_to_disk p = true /\
   memory (after module srv) <> memory srv) /\
  (performed is_load (sent module srv) = true ->
   cm = false /\ Params.load_to_runtime p = true /\
   memory (after module srv) <> memory srv) /\
  (forall res, outcome module srv = inr res ->
     (performed is_save (sent module srv) = true <->
      Result.changed res = true /\ cm = false /\
      Params.save_to_disk p = true) /\
     (performed is_load (sent module srv) = true <->
      Result.changed res = true /\ cm = false /\
      Params.load_to_runtime p = true) /\
     (Result.changed res = true /\ cm = false <->
      memory (after module srv) <> memory srv)).
Proof.
  cbn. destruct (propagation_needs_change module srv) as [Hs Hl].
  split; [exact Hs | split; [exact Hl|]].
  intros res Ho.
  destruct (propagation_iff_changed module srv res Ho) as [Hs' Hl'].
  split; [exact Hs' | split; [exact Hl'|]].
  symmetry. now apply memory_changed_iff.
Qed.

Lemma propagation_iff_witness :
  exists res,
    outcome retarget_module stale_server = inr res /\
    (performed is_save (sent retarget_module stale_server) = true <->
     Result.changed res = true /\
     AnsibleModule.check_mode retarget_module = false /\
     Params.save_to_disk (AnsibleModule.params retarget_module) = true) /\
    (performed is_load (sent retarget_module stale_server) = true <->
     Result.changed res = true /\
     AnsibleModule.check_mode retarget_module = false /\
     Params.load_to_runtime (AnsibleModule.params retarget_module) = true) /\
    (Result.changed res = true /\
     AnsibleModule.check_mode retarget_module = false <->
     memory (after retarget_module stale_server) <> memory stale_server).
Proof.
  eexists. split; [reflexivity|].
  apply (propagation_iff retarget_module stale_server). reflexivity.
Defined.

(** ** Creating the row *)

(** C6: with [state=present], check mode off and no row for the
    [writer_hostgroup], a row that the run inserts has as its nine columns
    the parameters of the same names, the comment being the empty string
    when the parameter is falsy ([None] or empty); it is appended to the
    table when the server accepts the INSERT; and the run does send the
    INSERT once [perform_checks] and the server accept. *)
Theorem inserted_row_records_parameters
  (module : AnsibleModule.t) (srv : ProxySQL) :
  let p := AnsibleModule.params module in
  Params.state p = present ->
  AnsibleModule.check_mode module = false ->
  (forall r, In r (memory srv) ->
             DbRow.writer_hostgroup r <> Params.writer_hostgroup p) ->
  (forall row, In (InsertRow row) (sent module srv) ->
     (refuses srv (InsertRow row) (memory srv) = None ->
      memory (after module srv) = memory srv ++ [row]) /\
     DbRow.writer_hostgroup row = Params.writer_hostgroup p /\
     DbRow.backup_writer_hostgroup row = Params.backup_writer_hostgroup p /\
     DbRow.reader_hostgroup row = Params.reader_hostgroup p /\
     DbRow.offline_hostgroup row = Params.offline_hostgroup p /\
     DbRow.active row = Params.active p /\
     DbRow.max_writers row = Params.max_writers p /\
     DbRow.writer_is_also_reader row = Params.writer_is_also_reader p /\
     DbRow.max_transactions_behind row = Params.max_transactions_behind p /\
     (truthy (Params.comment p) = true ->
      DbRow.comment row = Params.comment p) /\
     (truthy (Params.comment p) = false ->
      DbRow.comment row = Some ""%string)) /\
  (checks_pass p -> connect_error srv = None ->
   exists row, In (InsertRow row) (sent module srv)).
Proof.
  destruct module as [p cm], srv as [ce t d r rf].
  destruct p as [st sv ld w bw rh off act mw wr mtb c].
  unfold checks_pass. cbn. intros -> -> Hnone.
  apply no_row_select in Hnone.
  set (self := init (AnsibleModule.mk
                 (Params.mk present sv ld w bw rh off act mw wr mtb c) false)).
  assert (Hcols :
    DbRow.writer_hostgroup (new_row self) = w /\
    DbRow.backup_writer_hostgroup (new_row self) = bw /\
    DbRow.reader_hostgroup (new_row self) = rh /\
    DbRow.offline_hostgroup (new_row self) = off /\
    DbRow.active (new_row self) = act /\
    DbRow.max_writers (new_row self) = mw /\
    DbRow.writer_is_also_reader (new_row self) = wr /\
    DbRow.max_transactions_behind (new_row self) = mtb /\
    (truthy c = true -> DbRow.comment (new_row self) = c) /\
    (truthy c = false -> DbRow.comment (new_row self) = Some ""%string)).
  { repeat split; try reflexivity.
    - destruct c as [s|]; [|discriminate]. intros _.
      change (Some (or_empty (Some s)) = Some s). now rewrite or_empty_some.
    - destruct c as [s|]; [|reflexivity]. intros H.
      change (Some (or_empty (Some s)) = Some ""%string).
      unfold or_empty. now rewrite H. }
  split.
  - intros row.
    run_cases; cbn; intros Hin;
      repeat match goal with
        | H : _ \/ _ |- _ => destruct H
        | H : False |- _ => destruct H
        | H : _ = InsertRow _ |- _ => try discriminate H; injection H as <-
        end;
      try congruence.
    all: split; [|exact Hcols].
    all: intros Hacc; first [reflexivity | congruence].
  - intros (Hw & Hr & Hd) ->.
    exists (new_row self).
    run_cases; arith_hyps; try lia; try congruence; cbn; auto 6.
Qed.

Lemma inserted_row_records_parameters_witness :
  (forall row, In (InsertRow row) (sent fresh_module empty_server) ->
     (refuses empty_server (InsertRow row) (memory empty_server) = None ->
      memory (after fresh_module empty_server) = [] ++ [row]) /\
     DbRow.writer_hostgroup row = 1 /\
     DbRow.backup_writer_hostgroup row = 2 /\
     DbRow.reader_hostgroup row = 3 /\
     DbRow.offline_hostgroup row = 4 /\
     DbRow.active row = 1 /\
     DbRow.max_writers row = 1 /\
     DbRow.writer_is_also_reader row = 0 /\
     DbRow.max_transactions_behind row = 0 /\
     (truthy (Some "rw split"%string) = true ->
      DbRow.comment row = Some "rw split"%string) /\
     (truthy (Some "rw split"%string) = false ->
      DbRow.comment row = Some ""%string)) /\
  (checks_pass (AnsibleModule.params fresh_module) ->
   connect_error empty_server = None ->
   exists row, In (InsertRow row) (sent fresh_module empty_server)).
Proof.
  apply (inserted_row_records_parameters fresh_module empty_server).
  - reflexivity.
  - reflexivity.
  - intros r [].
Defined.

(** ** Insert, update, delete *)





(** ** The update path *)

(** C2 fails on the code: the row for writer hostgroup 1 holds
    [max_writers = 1]; a run with [state=present] and [max_writers = 5]
    sends no UPDATE, reports [changed = false] and leaves the row as it
    was.  [update_galera_group] compares and updates [comment] and
    [reader_hostgroup] only. *)
Theorem update_leaves_max_writers :
  select_row 1 (memory stale_server) = Some stale_row /\
  select_row 1 (memory (after raise_max_writers stale_server))
    = Some stale_row /\
  DbRow.max_writers stale_row <>
    Params.max_writers (AnsibleModule.params raise_max_writers) /\
  performed is_write (sent raise_max_writers stale_server) = false /\
  outcome raise_max_writers stale_server =
    inr (Result.mk present false None (Some (Some stale_row))).
Proof. repeat split; try reflexivity. cbn. discriminate. Qed.

(** X13: whatever the starting row, the update path leaves the six columns
    that it does not compare as they were. *)
Lemma update_keeps_other_columns (module : AnsibleModule.t) (srv : ProxySQL)
  (cur : DbRow.t) :
  let p := AnsibleModule.params module in
  Params.state p = present ->
  select_row (Params.writer_hostgroup p) (memory srv) = Some cur ->
  exists now,
    select_row (Params.writer_hostgroup p) (memory (after module srv))
      = Some now /\
    DbRow.backup_writer_hostgroup now = DbRow.backup_writer_hostgroup cur /\
    DbRow.offline_hostgroup now = DbRow.offline_hostgroup cur /\
    DbRow.active now = DbRow.active cur /\
    DbRow.max_writers now = DbRow.max_writers cur /\
    DbRow.writer_is_also_reader now = DbRow.writer_is_also_reader cur /\
    DbRow.max_transactions_behind now = DbRow.max_transactions_behind cur.
Proof.
  destruct module as [p cm], srv as [ce t d r rf].
  destruct p as [st sv ld w bw rh off act mw wr mtb c].
  cbn. intros -> Hcur.
  run_cases.
  all: rewrite ?select_row_update by auto with galera.
  all: try (rewrite Hcur; cbn; eexists; split; [reflexivity|];
            repeat split; reflexivity).
  all: try (injection Hcur as ->).
  all: try (match goal with
            | H : select_row _ _ = Some _ |- _ => rewrite H
            end; cbn; eexists; split; [reflexivity|];
            repeat split; reflexivity).
  all: try congruence.
Qed.

(** ** Running twice *)

(** C3 fails on the code: with [comment = None] the INSERT stores the empty
    string ([self.comment or '']), and the next run compares the stored
    comment with [None], finds them different, sends an UPDATE that sets the
    comment to NULL and reports [changed = true]. *)
Theorem second_run_rewrites_comment :
  let once := after null_comment_module empty_server in
  let twice := after null_comment_module once in
  memory once = [DbRow.mk 1 2 3 4 1 1 0 0 (Some ""%string)] /\
  memory twice = [DbRow.mk 1 2 3 4 1 1 0 0 None] /\
  memory twice <> memory once /\
  sent null_comment_module once =
    [Connect; SelectCount 1; SelectRow 1; UpdateComment None 1; SelectRow 1;
     SaveToDisk "SERVERS"; LoadToRuntime "SERVERS"; SelectRow 1] /\
  performed is_write (sent null_comment_module once) = true /\
  reports_changed (outcome null_comment_module once) = true.
Proof. cbn. repeat split; try reflexivity. discriminate. Qed.

(** On a settled table a run sends no INSERT, UPDATE or DELETE, reports no
    change and leaves the server as it is. *)
Lemma settled_stable (module : AnsibleModule.t) (srv : ProxySQL) :
  settled (AnsibleModule.params module) (memory srv) ->
  after module srv = srv /\
  performed is_write (sent module srv) = false /\
  reports_changed (outcome module srv) = false.
Proof.
  destruct module as [p cm], srv as [ce t d r rf].
  destruct p as [st sv ld w bw rh off act mw wr mtb c].
  unfold settled. cbn. destruct st.
  - intros (x & Hx & Hc & Hr).
    run_cases; try (repeat split; reflexivity); exfalso.
    all: try (arith_hyps;
              match goal with
              | H : (select_count _ _ >? 0) = false |- _ =>
                  apply select_count_none in H; congruence
              end).
    all: rewrite Hx in *.
    all: match goal with H : Some _ = Some _ |- _ => injection H as <- end.
    all: arith_hyps; try contradiction.
    all: match goal with
         | H : comment_ne _ _ = true |- _ =>
             rewrite Hc, comment_ne_refl in H; discriminate
         end.
  - intros Hx.
    run_cases; try (repeat split; reflexivity); exfalso.
    all: match goal with
         | H : (select_count _ _ >? 0) = true |- _ =>
             apply select_count_row in H; destruct H; congruence
         end.
Qed.

(** A run that [perform_checks] stops, or whose connection the server
    refuses, changes nothing. *)
Lemma refused_run (module : AnsibleModule.t) (srv : ProxySQL) :
  ~ checks_pass (AnsibleModule.params module) \/ connect_error srv <> None ->
  after module srv = srv /\
  performed is_write (sent module srv) = false /\
  reports_changed (outcome module srv) = false.
Proof.
  destruct module as [p cm], srv as [ce t d r rf].
  destruct p as [st sv ld w bw rh off act mw wr mtb c].
  unfold checks_pass. cbn. intros H.
  run_cases; try (repeat split; reflexivity); exfalso.
  all: arith_hyps; destruct H as [H|H]; try congruence; apply H; lia.
Qed.

(** Outside check mode, and with a comment that is a string, a run that
    ends with a result settles the table. *)
Lemma run_settles
  (module : AnsibleModule.t) (srv : ProxySQL) (s : string) (res : Result.t) :
  let p := AnsibleModule.params module in
  AnsibleModule.check_mode module = false ->
  Params.comment p = Some s ->
  outcome module srv = inr res ->
  settled p (memory (after module srv)).
Proof.
  destruct module as [p cm], srv as [ce t d r rf].
  destruct p as [st sv ld w bw rh off act mw wr mtb c].
  unfold settled. cbn. intros -> ->.
  set (self := init (AnsibleModule.mk
                 (Params.mk st sv ld w bw rh off act mw wr mtb (Some s))
                 false)).
  destruct st.
  - run_cases; intros Ho; try discriminate Ho; arith_hyps.
    all: rewrite ?select_row_update by auto with galera.
    all: try (exists (new_row self); split;
              [apply select_row_insert;
               [now apply select_count_none | apply (new_row_matches self)]
              | split; [|reflexivity];
                change (Some (or_empty (Some s)) = Some s);
                now rewrite or_empty_some]).
    all: match goal with
         | H : select_row _ _ = Some _ |- _ => rewrite H
         end; cbn; eexists; split; [reflexivity|]; cbn.
    all: repeat match goal with
           | H : comment_ne _ _ = false |- _ => apply comment_ne_false in H
           end.
    all: split; congruence.
  - run_cases; intros Ho; try discriminate Ho; arith_hyps.
    all: try apply select_row_delete.
    all: now apply select_count_none.
Qed.

(** X12: idempotence where it holds: for a comment that is a string, outside
    check mode, when the first run ends with a result the second run sends
    no INSERT, UPDATE or DELETE, reports no change and leaves the server as
    the first run left it. *)
Lemma idempotent_for_string_comment
  (module : AnsibleModule.t) (srv : ProxySQL) (s : string) (res : Result.t) :
  let once := after module srv in
  AnsibleModule.check_mode module = false ->
  Params.comment (AnsibleModule.params module) = Some s ->
  outcome module srv = inr res ->
  after module once = once /\
  performed is_write (sent module once) = false /\
  reports_changed (outcome module once) = false.
Proof.
  cbn. intros Hcm Hc Ho.
  apply settled_stable. now apply (run_settles module srv s res).
Qed.

(** * Further properties of the module *)

(** ** The key of the table *)

Lemma keys_update w f t :
  (forall r, DbRow.writer_hostgroup (f r) = DbRow.writer_hostgroup r) ->
  keys (update_rows w f t) = keys t.
Proof.
  unfold keys, update_rows. intros Hf. rewrite map_map.
  apply map_ext. intros r. now destruct (matches w r).
Qed.

Lemma keys_delete w t : NoDup (keys t) -> NoDup (keys (delete_rows w t)).
Proof.
  unfold keys, delete_rows.
  induction t as [|x t IH]; cbn; [auto|].
  intros H. inversion H as [|k l Hnin Hnd]; subst.
  destruct (negb (matches w x)); cbn; [|auto].
  constructor; [|auto].
  intros Hin. apply Hnin. apply in_map_iff in Hin.
  destruct Hin as (y & Hy & Hin). apply filter_In in Hin.
  apply in_map_iff. exists y. tauto.
Qed.

Lemma keys_insert w r t :
  select_row w t = None -> matches w r = true ->
  NoDup (keys t) -> NoDup (keys (insert_row r t)).
Proof.
  unfold keys, insert_row, matches. intros Hnone Hr Hnd.
  rewrite map_app. cbn. apply Z.eqb_eq in Hr. rewrite Hr.
  apply NoDup_app; [exact Hnd | repeat constructor; intros [] |].
  intros k Hin [<-|[]].
  apply in_map_iff in Hin. destruct Hin as (y & Hy & Hin).
  apply (proj2 (no_row_select _ t) Hnone y Hin Hy).
Qed.

(** X1: a table that holds at most one row for each writer hostgroup still
    does after a run: the module inserts only when its SELECT count found no
    row for the key. *)
Theorem key_stays_unique (module : AnsibleModule.t) (srv : ProxySQL) :
  NoDup (keys (memory srv)) -> NoDup (keys (memory (after module srv))).
Proof.
  destruct module as [p cm], srv as [ce t d r rf].
  destruct p as [st sv ld w bw rh off act mw wr mtb c].
  cbn. intros Hnd.
  set (self := init (AnsibleModule.mk
                 (Params.mk st sv ld w bw rh off act mw wr mtb c) cm)).
  pose proof (new_row_matches self) as Hm. cbn in Hm.
  run_cases; arith_hyps.
  all: rewrite ?keys_update by auto with galera.
  all: try exact Hnd.
  all: try (apply keys_delete; exact Hnd).
  all: apply (keys_insert w); [now apply select_count_none | | exact Hnd].
  all: exact Hm.
Qed.

Lemma key_stays_unique_witness :
  NoDup (keys (memory (after fresh_module stale_server))).
Proof.
  apply (key_stays_unique fresh_module stale_server).
  cbn. repeat constructor. intros [].
Defined.

(** ** How a run ends *)

(** X2: when [perform_checks] accepts the parameters and the server refuses
    the connection with the error [e], the module fails with "unable to
    connect to ProxySQL Admin Module.. " followed by [e]; the connection
    attempt is all that was sent and the server is as it was. *)
Theorem refused_connection_fails
  (module : AnsibleModule.t) (srv : ProxySQL) (e : string) :
  checks_pass (AnsibleModule.params module) ->
  connect_error srv = Some e ->
  outcome module srv =
    inl (FailJson ("unable to connect to ProxySQL Admin Module.. " ++ e)) /\
  sent module srv = [Connect] /\
  after module srv = srv.
Proof.
  destruct module as [p cm], srv as [ce t d r rf].
  destruct p as [st sv ld w bw rh off act mw wr mtb c].
  unfold checks_pass. cbn. intros (Hw & Hr & Hd) ->.
  run_cases; arith_hyps; try lia; repeat split; reflexivity.
Qed.

Lemma refused_connection_fails_witness :
  outcome plain_module refusing_server =
    inl (FailJson
           ("unable to connect to ProxySQL Admin Module.. "
            ++ "Access denied")) /\
  sent plain_module refusing_server = [Connect] /\
  after plain_module refusing_server = refusing_server.
Proof.
  apply (refused_connection_fails plain_module refusing_server).
  - unfold checks_pass. cbn. lia.
  - reflexivity.
Defined.

(** X3: the three checks of [perform_checks] are tried in order and the
    first that fails decides the message: the writer message is reported
    exactly for a negative [writer_hostgroup], the reader message exactly
    for a negative [reader_hostgroup] with a non-negative writer, and the
    message on equal values exactly when both are non-negative and equal. *)
Theorem validation_message_order (module : AnsibleModule.t) (srv : ProxySQL) :
  let p := AnsibleModule.params module in
  let w := Params.writer_hostgroup p in
  let rh := Params.reader_hostgroup p in
  (outcome module srv = inl (FailJson msg_writer) <-> w < 0) /\
  (outcome module srv = inl (FailJson msg_reader) <-> 0 <= w /\ rh < 0) /\
  (outcome module srv = inl (FailJson msg_different) <->
   0 <= w /\ 0 <= rh /\ rh = w).
Proof.
  destruct module as [p cm], srv as [ce t d r rf].
  destruct p as [st sv ld w bw rh off act mw wr mtb c].
  cbn. run_cases; arith_hyps.
  all: repeat split; intros; try lia; try reflexivity; try discriminate.
Qed.

(** X4: a run of [main] ends with a result or with [fail_json], never with
    an exception of its own: the AttributeError of [current.get] in
    [update_galera_group] cannot occur, because [main] enters the update
    path only after the count query found a row, and the driver's error is
    caught.  Every failure carries one of the three messages of
    [perform_checks], the connection message with the server's error, or,
    when the server refused a statement that was sent, the message
    "unable to modify galera hostgroup.. " under [state=present]
    and "unable to delete galera hostgroup.. " under [state=absent],
    followed by the server's error. *)
Theorem run_exits_or_fails (module : AnsibleModule.t) (srv : ProxySQL) :
  let p := AnsibleModule.params module in
  (exists r, outcome module srv = inr r) \/
  outcome module srv = inl (FailJson msg_writer) \/
  outcome module srv = inl (FailJson msg_reader) \/
  outcome module srv = inl (FailJson msg_different) \/
  (exists e, connect_error srv = Some e /\
     outcome module srv =
       inl (FailJson ("unable to connect to ProxySQL Admin Module.. " ++ e)))
  \/
  (exists e ev tb,
     Params.state p = present /\
     outcome module srv =
       inl (FailJson ("unable to modify galera hostgroup.. " ++ e)) /\
     refuses srv ev tb = Some e /\ In ev (sent module srv)) \/
  (exists e ev tb,
     Params.state p = absent /\
     outcome module srv =
       inl (FailJson ("unable to delete galera hostgroup.. " ++ e)) /\
     refuses srv ev tb = Some e /\ In ev (sent module srv)).
Proof.
  destruct module as [p cm], srv as [ce t d r rf].
  destruct p as [st sv ld w bw rh off act mw wr mtb c].
  cbn. run_cases.
  all: try (left; eexists; reflexivity).
  all: try (right; left; reflexivity).
  all: try (right; right; left; reflexivity).
  all: try (right; right; right; left; reflexivity).
  all: try (right; right; right; right; left; eexists; split; reflexivity).
  all: try (do 5 right; left;
            match goal with
            | H : ?f ?ev ?tb = Some ?e |- _ =>
                exists e, ev, tb;
                split; [reflexivity|]; split; [reflexivity|];
                split; [exact H|]; cbn; auto 12
            end).
  all: do 6 right;
    match goal with
    | H : ?f ?ev ?tb = Some ?e |- _ =>
        exists e, ev, tb;
        split; [reflexivity|]; split; [reflexivity|];
        split; [exact H|]; cbn; auto 12
    end.
Qed.

(** X5: called on a table without a row for the writer hostgroup,
    [update_galera_group] itself raises the AttributeError of [.get] on
    [None] right after its SELECT: it sends that one query and writes
    nothing. *)
Theorem update_without_row_raises
  (self : ProxySQLGaleraHostgroup) (result : Result.t) (s : Admin) :
  select_row (writer_hostgroup self) (memory (server s)) = None ->
  update_galera_group self result DictCursor s =
    (inl AttributeError,
     {| server := server s;
        log := log s ++ [SelectRow (writer_hostgroup self)] |}).
Proof.
  intros Hnone. destruct s as [srv l].
  unfold update_galera_group, get_galera_group_config, bind, emit, read.
  cbn in *. rewrite Hnone. reflexivity.
Qed.

Lemma update_without_row_raises_witness :
  update_galera_group present_self
    (Result.mk present false None None) DictCursor
    {| server := empty_server; log := [] |} =
    (inl AttributeError,
     {| server := empty_server; log := [] ++ [SelectRow 1] |}).
Proof.
  apply (update_without_row_raises present_self
           (Result.mk present false None None)
           {| server := empty_server; log := [] |}).
  reflexivity.
Defined.

(** ** Check mode against a real run *)

(** X6: a check-mode run predicts the real run as far as the real run
    gets: when the run with check mode off ends with a result, the
    check-mode run on the same server ends with a result too and reports
    the same [changed]; and a failure of the check-mode run ([perform_checks]
    or the connection) is the failure of the real run. *)
Theorem check_mode_predicts (p : Params.t) (srv : ProxySQL) :
  let dry := AnsibleModule.mk p true in
  let real := AnsibleModule.mk p false in
  (forall e, outcome dry srv = inl e -> outcome real srv = inl e) /\
  (forall res, outcome real srv = inr res ->
   exists res', outcome dry srv = inr res' /\
                Result.changed res' = Result.changed res).
Proof.
  destruct srv as [ce t d r rf].
  destruct p as [st sv ld w bw rh off act mw wr mtb c].
  cbn. run_cases.
  all: split; [intros e H; first [exact H | discriminate H]|].
  all: intros res H; try discriminate H; injection H as <-.
  all: eexists; split; reflexivity.
Qed.

Lemma check_mode_predicts_witness :
  exists res',
    outcome (AnsibleModule.mk (AnsibleModule.params retarget_module) true)
      stale_server = inr res' /\
    Result.changed res' = true.
Proof.
  apply (proj2 (check_mode_predicts (AnsibleModule.params retarget_module)
                  stale_server)
           (Result.mk present true
              (Some "Updated galera hostgroups"%string)
              (Some (Some (DbRow.mk 1 2 7 4 1 1 0 0
                             (Some "moved"%string)))))).
  reflexivity.
Defined.

(** ** What is sent *)

(** X7: the module connects at most once and before anything else; every
    statement it then sends is restricted to the [writer_hostgroup] of the
    parameters (or inserts a row with it), and a save or load names
    "SERVERS".  Nothing at all is sent exactly when the parameters do not
    pass [perform_checks]. *)
Theorem commands_are_addressed (module : AnsibleModule.t) (srv : ProxySQL) :
  let p := AnsibleModule.params module in
  (sent module srv = [] /\ ~ checks_pass p) \/
  (exists rest,
     sent module srv = Connect :: rest /\
     forallb (addressed (Params.writer_hostgroup p)) rest = true /\
     checks_pass p).
Proof.
  destruct module as [p cm], srv as [ce t d r rf].
  destruct p as [st sv ld w bw rh off act mw wr mtb c].
  unfold checks_pass. cbn.
  set (self := init (AnsibleModule.mk
                 (Params.mk st sv ld w bw rh off act mw wr mtb c) cm)).
  run_cases; arith_hyps.
  all: try (left; split; [reflexivity | lia]).
  all: right; eexists; split; [reflexivity|]; split; [|lia].
  all: cbn; unfold new_row; cbn; rewrite ?Z.eqb_refl; reflexivity.
Qed.

Lemma layers_after (module : AnsibleModule.t) (srv : ProxySQL) :
  (performed is_save (sent module srv) = true ->
   disk (after module srv) = memory (after module srv)) /\
  (performed is_save (sent module srv) = false ->
   disk (after module srv) = disk srv) /\
  (performed is_load (sent module srv) = true ->
   runtime (after module srv) = memory (after module srv)) /\
  (performed is_load (sent module srv) = false ->
   runtime (after module srv) = runtime srv).
Proof.
  destruct module as [p cm], srv as [ce t d r rf].
  destruct p as [st sv ld w bw rh off act mw wr mtb c].
  run_cases.
  all: repeat split; intros H; first [reflexivity | discriminate H].
Qed.

(** X8: a save or a load comes after every INSERT, UPDATE and DELETE of
    the run, so what is saved or loaded is the table as the run leaves it:
    the disk layer ends equal to the memory layer when a save was sent and
    is untouched otherwise, and likewise the runtime layer with a load. *)
Theorem propagation_comes_last (module : AnsibleModule.t) (srv : ProxySQL) :
  quiet_after_propagation (sent module srv) = true /\
  disk (after module srv) =
    (if performed is_save (sent module srv)
     then memory (after module srv) else disk srv) /\
  runtime (after module srv) =
    (if performed is_load (sent module srv)
     then memory (after module srv) else runtime srv).
Proof.
  destruct (layers_after module srv) as (Hs & Hns & Hl & Hnl).
  split; [|split].
  - destruct module as [p cm], srv as [ce t d r rf].
    destruct p as [st sv ld w bw rh off act mw wr mtb c].
    run_cases; reflexivity.
  - destruct (performed is_save (sent module srv)); auto.
  - destruct (performed is_load (sent module srv)); auto.
Qed.

(** ** What the result holds *)

(** X9: with check mode off, the [galera_group] of the result is, under
    [state=present], the row for the writer hostgroup as the table holds it
    after the run, and under [state=absent] the row that was deleted (the
    key is missing when there was none to delete); after an [absent] run no
    row for the writer hostgroup is left. *)
Theorem result_returns_row
  (module : AnsibleModule.t) (srv : ProxySQL) (r : Result.t) :
  let p := AnsibleModule.params module in
  let w := Params.writer_hostgroup p in
  outcome module srv = inr r ->
  AnsibleModule.check_mode module = false ->
  (Params.state p = present ->
   exists row, Result.galera_group r = Some (Some row) /\
               select_row w (memory (after module srv)) = Some row) /\
  (Params.state p = absent ->
   Result.galera_group r = option_map Some (select_row w (memory srv)) /\
   select_row w (memory (after module srv)) = None).
Proof.
  destruct module as [p cm], srv as [ce t d rt rf].
  destruct p as [st sv ld w bw rh off act mw wr mtb c].
  destruct cm; cbn; [intros _ Hcm; discriminate Hcm|].
  run_cases.
  all: intros Ho Hcm; try discriminate Ho; try discriminate Hcm.
  all: injection Ho as <-; cbn.
  all: split; intros Hst; try discriminate Hst.
  all: rewrite ?select_row_update by auto with galera.
  all: try match goal with
         | H : select_row _ _ = Some _ |- _ => rewrite H
         end; cbn.
  all: try (eexists; split; reflexivity).
  all: arith_hyps.
  all: try (match goal with
            | H : (select_count _ _ >? 0) = false |- _ =>
                apply select_count_none in H
            end).
  all: try (match goal with
            | H : select_row ?k ?l = None
              |- context [insert_row (new_row ?s) ?l] =>
                rewrite (select_row_insert k l (new_row s) H
                           (new_row_matches s));
                eexists; split; reflexivity
            end).
  all: try (match goal with
            | H : select_row _ _ = None |- _ => rewrite H
            end; split; reflexivity).
  all: split; [|apply select_row_delete].
  all: match goal with
       | H : (select_count _ _ >? 0) = true |- _ =>
           apply select_count_row in H; destruct H as [x H]; rewrite H
       end; reflexivity.
Qed.

Lemma result_returns_row_witness :
  (exists row,
     Result.galera_group
       (Result.mk present true (Some "Updated galera hostgroups"%string)
          (Some (Some (DbRow.mk 1 2 7 4 1 1 0 0 (Some "moved"%string)))))
     = Some (Some row) /\
     select_row 1 (memory (after retarget_module stale_server)) = Some row) /\
  (Result.galera_group
     (Result.mk absent true (Some "Deleted server from mysql_hosts"%string)
        (Some (Some stale_row)))
   = option_map Some (select_row 1 (memory stale_server)) /\
   select_row 1 (memory (after remove_module stale_server)) = None).
Proof.
  split.
  - apply (result_returns_row retarget_module stale_server
             (Result.mk present true
                (Some "Updated galera hostgroups"%string)
                (Some (Some (DbRow.mk 1 2 7 4 1 1 0 0
                               (Some "moved"%string))))));
      reflexivity.
  - apply (result_returns_row remove_module stale_server
             (Result.mk absent true
                (Some "Deleted server from mysql_hosts"%string)
                (Some (Some stale_row))));
      reflexivity.
Defined.

(** X10: the result of a run carries no [msg] exactly when [state=present]
    and the row for the writer hostgroup already held the parameters'
    comment and reader hostgroup: [update_galera_group] sets a message only
    where it finds a difference.  Every other run that ends with a result
    carries a message. *)
Theorem message_missing_iff_settled
  (module : AnsibleModule.t) (srv : ProxySQL) (r : Result.t) :
  let p := AnsibleModule.params module in
  outcome module srv = inr r ->
  (Result.msg r = None <->
   Params.state p = present /\ settled p (memory srv)).
Proof.
  destruct module as [p cm], srv as [ce t d rt rf].
  destruct p as [st sv ld w bw rh off act mw wr mtb c].
  unfold settled. cbn. destruct st.
  - run_cases; intros Ho; try discriminate Ho; injection Ho as <-; cbn.
    all: arith_hyps.
    all: split;
      [intros Hm; try discriminate Hm | intros (_ & x & Hx & Hc & Hr)].
    all: try (match goal with
              | H : (select_count _ _ >? 0) = false |- _ =>
                  apply select_count_none in H; congruence
              end).
    all: try discriminate Hx.
    all: try (injection Hx as <-).
    all: try contradiction.
    all: try (match goal with
              | H : comment_ne _ _ = true |- _ =>
                  rewrite Hc, comment_ne_refl in H; discriminate H
              end).
    all: try reflexivity.
    all: split; [reflexivity|]; eexists; split; [reflexivity|].
    all: split; [now apply comment_ne_false | assumption].
  - run_cases; intros Ho; try discriminate Ho; injection Ho as <-; cbn.
    all: split;
      [intros Hm; discriminate Hm | intros (Hs & _); discriminate Hs].
Qed.

Lemma message_missing_iff_settled_witness :
  Result.msg (Result.mk present false None (Some (Some stale_row))) = None <->
  Params.state (AnsibleModule.params raise_max_writers) = present /\
  settled (AnsibleModule.params raise_max_writers) (memory stale_server).
Proof.
  apply (message_missing_iff_settled raise_max_writers stale_server
           (Result.mk present false None (Some (Some stale_row)))).
  reflexivity.
Defined.

(** ** Running again *)

Lemma connect_error_kept (module : AnsibleModule.t) (srv : ProxySQL) :
  connect_error (after module srv) = connect_error srv.
Proof.
  destruct module as [p cm], srv as [ce t d rt rf].
  destruct p as [st sv ld w bw rh off act mw wr mtb c].
  run_cases; reflexivity.
Qed.

(** Outside check mode, a run that ends with a result settles the table
    once the row exists or the state is [absent], whatever the comment. *)
Lemma run_settles_existing
  (module : AnsibleModule.t) (srv : ProxySQL) (res : Result.t) :
  let p := AnsibleModule.params module in
  AnsibleModule.check_mode module = false ->
  outcome module srv = inr res ->
  Params.state p = absent \/
  (exists cur, select_row (Params.writer_hostgroup p) (memory srv)
               = Some cur) ->
  settled p (memory (after module srv)).
Proof.
  destruct module as [p cm], srv as [ce t d rt rf].
  destruct p as [st sv ld w bw rh off act mw wr mtb c].
  unfold settled. cbn. intros -> Ho Hex. revert Ho.
  destruct st.
  - destruct Hex as [Hex|[cur Hcur]]; [discriminate Hex|].
    run_cases; intros Ho; try discriminate Ho; arith_hyps.
    all: try (match goal with
              | H : (select_count _ _ >? 0) = false |- _ =>
                  apply select_count_none in H; congruence
              end).
    all: rewrite ?select_row_update by auto with galera.
    all: match goal with
         | H : select_row _ _ = Some _ |- _ => rewrite H
         end; cbn; eexists; split; [reflexivity|]; cbn.
    all: repeat match goal with
           | H : comment_ne _ _ = false |- _ => apply comment_ne_false in H
           end.
    all: split; congruence.
  - run_cases; intros Ho; try discriminate Ho; arith_hyps.
    all: try apply select_row_delete.
    all: now apply select_count_none.
Qed.

(** Outside check mode, a run under [state=present] that ends with a result
    leaves a row for the writer hostgroup. *)
Lemma present_run_leaves_row
  (module : AnsibleModule.t) (srv : ProxySQL) (res : Result.t) :
  let p := AnsibleModule.params module in
  AnsibleModule.check_mode module = false ->
  Params.state p = present ->
  outcome module srv = inr res ->
  exists row,
    select_row (Params.writer_hostgroup p) (memory (after module srv))
    = Some row.
Proof.
  destruct module as [p cm], srv as [ce t d rt rf].
  destruct p as [st sv ld w bw rh off act mw wr mtb c].
  cbn. intros -> ->.
  run_cases; intros Ho; try discriminate Ho; arith_hyps.
  all: rewrite ?select_row_update by auto with galera.
  all: try (match goal with
            | H : select_row _ _ = Some _ |- _ => rewrite H
            end; cbn; eexists; reflexivity).
  all: match goal with
       | H : (select_count ?k ?l >? 0) = false
         |- context [insert_row (new_row ?s) ?l] =>
           apply select_count_none in H;
           rewrite (select_row_insert k l (new_row s) H (new_row_matches s));
           eexists; reflexivity
       end.
Qed.

(** X11: outside check mode, two runs that end with a result reach a table
    on which further runs do nothing, whatever the parameters (a comment
    [None] included): the third run sends no INSERT, UPDATE or DELETE,
    reports no change and leaves the server as the second run left it. *)
Theorem third_run_changes_nothing
  (module : AnsibleModule.t) (srv : ProxySQL) (res1 res2 : Result.t) :
  let once := after module srv in
  let twice := after module once in
  AnsibleModule.check_mode module = false ->
  outcome module srv = inr res1 ->
  outcome module once = inr res2 ->
  after module twice = twice /\
  performed is_write (sent module twice) = false /\
  reports_changed (outcome module twice) = false.
Proof.
  cbn. intros Hcm Ho1 Ho2.
  apply settled_stable.
  apply (run_settles_existing module (after module srv) res2 Hcm Ho2).
  destruct (Params.state (AnsibleModule.params module)) eqn:Hst;
    [right | now left].
  exact (present_run_leaves_row module srv res1 Hcm Hst Ho1).
Qed.

Lemma third_run_changes_nothing_witness :
  let twice :=
    after null_comment_module (after null_comment_module empty_server) in
  after null_comment_module twice = twice /\
  performed is_write (sent null_comment_module twice) = false /\
  reports_changed (outcome null_comment_module twice) = false.
Proof.
  apply (third_run_changes_nothing null_comment_module empty_server
           (Result.mk present true
              (Some "Added server to mysql_hosts"%string)
              (Some (Some (DbRow.mk 1 2 3 4 1 1 0 0 (Some ""%string)))))
           (Result.mk present true
              (Some "Updated galera hostgroups"%string)
              (Some (Some (DbRow.mk 1 2 3 4 1 1 0 0 None)))));
    reflexivity.
Defined.

Lemma idempotent_for_string_comment_witness :
  let once := after retarget_module stale_server in
  after retarget_module once = once /\
  performed is_write (sent retarget_module once) = false /\
  reports_changed (outcome retarget_module once) = false.
Proof.
  apply (idempotent_for_string_comment retarget_module stale_server
           "moved"%string
           (Result.mk present true
              (Some "Updated galera hostgroups"%string)
              (Some (Some (DbRow.mk 1 2 7 4 1 1 0 0
                             (Some "moved"%string))))));
    reflexivity.
Defined.

Lemma update_keeps_other_columns_witness :
  exists now,
    select_row 1 (memory (after raise_max_writers stale_server)) = Some now /\
    DbRow.backup_writer_hostgroup now = 2 /\
    DbRow.offline_hostgroup now = 4 /\
    DbRow.active now = 1 /\
    DbRow.max_writers now = 1 /\
    DbRow.writer_is_also_reader now = 0 /\
    DbRow.max_transactions_behind now = 0.
Proof.
  apply (update_keeps_other_columns raise_max_writers stale_server
           stale_row); reflexivity.
Defined.

(** ** What [changed] means *)

(** X14: a run that ends with a result reports [changed] exactly when the
    table did not already hold what the module compares: under
    [state=present] when the row was missing or its comment or reader
    hostgroup differed from the parameters, under [state=absent] when a row
    existed; in check mode as well. *)
Theorem changed_iff_unsettled
  (module : AnsibleModule.t) (srv : ProxySQL) (r : Result.t) :
  let p := AnsibleModule.params module in
  outcome module srv = inr r ->
  (Result.changed r = true <-> ~ settled p (memory srv)).
Proof.
  destruct module as [p cm], srv as [ce t d rt rf].
  destruct p as [st sv ld w bw rh off act mw wr mtb c].
  unfold settled. cbn. destruct st.
  - run_cases; intros Ho; try discriminate Ho; injection Ho as <-; cbn.
    all: arith_hyps.
    all: split; [intros Hch; try discriminate Hch; intros (x & Hx & Hc & Hr)
                | intros Hn; try reflexivity; exfalso; apply Hn].
    all: try (match goal with
              | H : (select_count _ _ >? 0) = false |- _ =>
                  apply select_count_none in H; congruence
              end).
    all: try discriminate Hx.
    all: try (injection Hx as <-).
    all: try contradiction.
    all: try (match goal with
              | H : comment_ne _ _ = true |- _ =>
                  rewrite Hc, comment_ne_refl in H; discriminate H
              end).
    all: eexists; split; [reflexivity|].
    all: split; [now apply comment_ne_false | assumption].
  - run_cases; intros Ho; try discriminate Ho; injection Ho as <-; cbn.
    all: split; [intros Hch; try discriminate Hch; intros Hx
                | intros Hn; try reflexivity; exfalso; apply Hn].
    all: try (match goal with
              | H : (select_count _ _ >? 0) = true |- _ =>
                  apply select_count_row in H; destruct H; congruence
              end).
    all: now apply select_count_none.
Qed.

Lemma changed_iff_unsettled_witness :
  Result.changed
    (Result.mk present false None (Some (Some stale_row))) = true <->
  ~ settled (AnsibleModule.params raise_max_writers) (memory stale_server).
Proof.
  apply (changed_iff_unsettled raise_max_writers stale_server
           (Result.mk present false None (Some (Some stale_row)))).
  reflexivity.
Defined.
